(** * Temporal debouncing of object detections

    A shallow embedding of [Detector] from
    [object_detection_video_stream.py] and the properties of its
    [get_detections] method.

    Python's [float] is IEEE-754 binary64, which is exactly Rocq's
    primitive [float]; clock readings, scores and thresholds are therefore
    kept as primitive floats and every comparison below is the comparison
    the interpreter performs.  The wall clock ([time.time()]) is read once
    per call; here it is the explicit argument [curr_time]. *)

From Stdlib Require Import Floats List Bool.
From stdpp Require Import gmap strings.
Import ListNotations.

Set Warnings "-inexact-float".
Local Open Scope float_scope.

Module Detector.

(** ** Data *)

(** One entry of [inference_result.results]: a dict with the keys
    ['bbox'], ['label'] and ['score']. *)
Record result : Type := mk_result {
  bbox  : list float;
  label : string;
  score : float
}.

(** One reported detection: the dict [{'label': label, 'bbox': bbox}]. *)
Record verified : Type := mk_verified {
  v_label : string;
  v_bbox  : list float
}.

(** The instance attributes assigned in [__init__]. *)
Record t : Type := mk {
  labels        : gset string;    (* set of labels to be detected *)
  score_th      : float;          (* score threshold *)
  time_th       : float;          (* time threshold *)
  time_detected : float;          (* time of first detection *)
  detected      : bool;           (* is something detected *)
  detections    : list verified   (* list of last verified detections *)
}.

(** Class attribute [Detector._absent_time_th = 2]. *)
Definition _absent_time_th : float := 2.

(** The sentinel [-1.0] stored in [time_detected] while no streak runs. *)
Definition no_time : float := -1.

(** [Detector.__init__] *)
Definition init (labels : gset string) (score_th time_th : float) : t :=
  {| labels := labels; score_th := score_th; time_th := time_th;
     time_detected := no_time; detected := false; detections := [] |}.

Definition set_time_detected (self : t) (v : float) : t :=
  {| labels := labels self; score_th := score_th self;
     time_th := time_th self; time_detected := v;
     detected := detected self; detections := detections self |}.

Definition set_detections (self : t) (v : list verified) : t :=
  {| labels := labels self; score_th := score_th self;
     time_th := time_th self; time_detected := time_detected self;
     detected := detected self; detections := v |}.

(** ** The tests [get_detections] performs *)

(** [self.time_detected > 0.0] (lines 64 and 68). *)
Definition is_set (self : t) : bool := 0 <? time_detected self.

(** [self.time_detected < 0.0] (line 84). *)
Definition is_unset (self : t) : bool := time_detected self <? 0.

(** [label in self.labels and score > self.score_th] (line 62). *)
Definition is_candidate (self : t) (r : result) : bool :=
  bool_decide (label r ∈ labels self) && (score_th self <? score r).

(** [self.time_detected > 0.0 and
     curr_time - self.time_detected > self.time_th] (line 64). *)
Definition sustained (self : t) (curr_time : float) : bool :=
  is_set self && (time_th self <? curr_time - time_detected self).

(** [curr_time - self.time_detected < Detector._absent_time_th]
    (line 69). *)
Definition in_grace (self : t) (curr_time : float) : bool :=
  curr_time - time_detected self <? _absent_time_th.

(** [{'label': label, 'bbox': bbox}] (line 66): the score is dropped. *)
Definition report (r : result) : verified :=
  {| v_label := label r; v_bbox := bbox r |}.

(** ** [get_detections] *)

(** Body of the [for] loop (lines 58-66), on the pair of locals
    [(is_something_detected, curr_detections)]. *)
Definition scan_step (self : t) (curr_time : float)
    (acc : bool * list verified) (r : result) : bool * list verified :=
  if is_candidate self r then
    (true,
     if sustained self curr_time then snd acc ++ [report r] else snd acc)
  else acc.

(** The whole loop, from [is_something_detected = False] and
    [curr_detections = list()]. *)
Definition scan (self : t) (curr_time : float) (results : list result)
    : bool * list verified :=
  fold_left (scan_step self curr_time) results (false, []).

(** Lines 68-78: what happens when a streak is running and the frame
    holds no candidate. *)
Definition absence (self : t) (curr_time : float)
    (is_something_detected : bool) (curr_detections : list verified)
    : t * list verified :=
  if is_set self && negb is_something_detected then
    if in_grace self curr_time then
      (self, detections self)
    else
      if (0 <? length (detections self))%nat then
        (set_time_detected (set_detections self []) no_time,
         curr_detections)
      else (self, curr_detections)
  else (self, curr_detections).

(** Lines 80-82. *)
Definition refresh (self : t) (curr_detections : list verified) : t :=
  if (0 <? length curr_detections)%nat
  then set_detections self curr_detections
  else self.

(** Lines 84-87. *)
Definition start_streak (self : t) (curr_time : float)
    (is_something_detected : bool) : t :=
  if is_something_detected && is_unset self
  then set_time_detected self curr_time
  else self.

(** [Detector.get_detections]: the state after the call and the list
    returned. *)
Definition get_detections (self : t) (curr_time : float)
    (inference_result : list result) : t * list verified :=
  let '(is_something_detected, curr_detections) :=
    scan self curr_time inference_result in
  let '(self1, curr_detections) :=
    absence self curr_time is_something_detected curr_detections in
  let self2 := refresh self1 curr_detections in
  let self3 := start_streak self2 curr_time is_something_detected in
  (self3, curr_detections).

(** ** Sequences of calls *)

(** One call: the clock reading and the frame's raw detections. *)
Definition call : Type := float * list result.

(** Feed the calls to one detector in order; the final state and the
    list returned by each call. *)
Fixpoint run (self : t) (calls : list call) : t * list (list verified) :=
  match calls with
  | [] => (self, [])
  | (curr_time, frame) :: rest =>
      let '(self', out) := get_detections self curr_time frame in
      let '(final, outs) := run self' rest in
      (final, out :: outs)
  end.

(** Some raw detection of the frame is a candidate. *)
Definition any_candidate (self : t) (frame : list result) : bool :=
  existsb (is_candidate self) frame.

(** Some raw detection of the frame is a candidate carrying label [l]. *)
Definition candidate_of (self : t) (l : string) (frame : list result)
    : bool :=
  existsb (fun r => is_candidate self r && bool_decide (label r = l)) frame.

(** The returned list mentions label [l]. *)
Definition reports (l : string) (out : list verified) : Prop :=
  In l (map v_label out).

(** No streak is running and nothing is cached. *)
Definition idle (self : t) : Prop :=
  is_unset self = true /\ detections self = [].

(** The attributes that [get_detections] only reads. *)
Definition same_config (a b : t) : Prop :=
  labels a = labels b /\ score_th a = score_th b /\ time_th a = time_th b.

(** Along the calls, whenever label [l] is a candidate of the frame the
    running streak is not yet older than [time_th]: the test of line 64
    fails at that call. *)
Fixpoint within_sustain (l : string) (self : t) (calls : list call)
    : Prop :=
  match calls with
  | [] => True
  | (curr_time, frame) :: rest =>
      (candidate_of self l frame = true -> sustained self curr_time = false)
      /\ within_sustain l (fst (get_detections self curr_time frame)) rest
  end.

(** Every frame of the calls holds a candidate carrying label [l]. *)
Definition always_present (self : t) (l : string) (calls : list call)
    : bool :=
  forallb (fun c : call => candidate_of self l (snd c)) calls.

(** No frame of the calls holds a candidate. *)
Definition never_present (self : t) (calls : list call) : bool :=
  forallb (fun c : call => negb (any_candidate self (snd c))) calls.

(** ** The worked example: one cat, watched with thresholds 0.5 and 1.0 *)

Definition cat : result :=
  {| bbox := [0; 0; 1; 1]; label := "cat"; score := 0.9 |}.

Definition cat_report : verified :=
  {| v_label := "cat"; v_bbox := [0; 0; 1; 1] |}.

Definition cat_watch : t := init {[ "cat" ]} 0.5 1.

(** ** The script's main block *)

(** [labels: set = {"cat", "racoon", "dog"}] (line 105). *)
Definition main_labels : gset string := {[ "cat"; "racoon"; "dog" ]}.

(** Lines 128-130: what the loop prints for the list one call returned. *)
Definition notify (detections : list verified) : list string :=
  if negb (Nat.eqb (length detections) 0) then ["detected"] else [].

(** The loop of lines 126-132 over the frames the stream delivered, each
    with the clock reading of its call; [display.show] and [time.sleep]
    do not touch the detector.  The detector afterwards and the lines
    printed. *)
Fixpoint main_loop (detector : t) (stream : list call) : t * list string :=
  match stream with
  | [] => (detector, [])
  | (curr_time, inference_result) :: rest =>
      let '(detector', detections) :=
        get_detections detector curr_time inference_result in
      let '(final, printed) := main_loop detector' rest in
      (final, notify detections ++ printed)
  end.

(** Lines 105-118 and the loop: the detector is built from the fixed
    label set and the two thresholds of the configuration file. *)
Definition main (score_th time_th : float) (stream : list call)
    : t * list string :=
  main_loop (init main_labels score_th time_th) stream.

(** ** Vocabulary of the further properties *)

(** [v] is the report of a candidate among the raw detections [seen]. *)
Definition from_candidate (self : t) (seen : list result) (v : verified)
    : Prop :=
  exists r, In r seen /\ is_candidate self r = true /\ v = report r.

(** All raw detections of the calls, in order. *)
Definition raw_detections (calls : list call) : list result :=
  concat (map snd calls).

(** Every call comes while [curr_time - start < _absent_time_th] holds. *)
Definition all_in_grace (start : float) (calls : list call) : bool :=
  forallb (fun c : call => fst c - start <? _absent_time_th) calls.

(** ** Facts about the comparisons with [0.0] *)

(** The two tests on [time_detected] exclude each other (both fail at
    [0.0] and at NaN). *)
Lemma ltb_zero_asym (x : float) : (x <? 0) = true -> (0 <? x) = false.
Proof.
  rewrite !ltb_spec. change (Prim2SF 0) with (S754_zero false).
  destruct (Prim2SF x) as [[]|[]| |[] m e]; simpl;
    first [reflexivity | discriminate].
Qed.

Lemma zero_ltb_asym (x : float) : (0 <? x) = true -> (x <? 0) = false.
Proof.
  intros H. destruct (x <? 0) eqn:E; [|reflexivity].
  apply ltb_zero_asym in E. congruence.
Qed.

Lemma unset_not_set (self : t) : is_unset self = true -> is_set self = false.
Proof. apply ltb_zero_asym. Qed.

Lemma set_not_unset (self : t) : is_set self = true -> is_unset self = false.
Proof. apply zero_ltb_asym. Qed.

Lemma init_unset ls sc tm : is_unset (init ls sc tm) = true.
Proof. reflexivity. Qed.

(** ** The loop in closed form *)

Lemma scan_from (self : t) (curr_time : float) (frame : list result) :
  forall (b : bool) (acc : list verified),
    fold_left (scan_step self curr_time) frame (b, acc) =
    (b || any_candidate self frame,
     if sustained self curr_time
     then acc ++ map report (List.filter (is_candidate self) frame)
     else acc).
Proof.
  induction frame as [|r frame IH]; intros b acc; simpl.
  - rewrite orb_false_r, app_nil_r. now destruct (sustained _ _).
  - unfold scan_step at 2; simpl.
    destruct (is_candidate self r); simpl; rewrite IH.
    + rewrite orb_true_r.
      destruct (sustained self curr_time); [|reflexivity].
      now rewrite <- app_assoc.
    + reflexivity.
Qed.

(** The loop sets [is_something_detected] exactly when the frame holds a
    candidate, and collects the candidates only once the streak is older
    than [time_th]. *)
Lemma scan_spec (self : t) (curr_time : float) (frame : list result) :
  scan self curr_time frame =
  (any_candidate self frame,
   if sustained self curr_time
   then map report (List.filter (is_candidate self) frame)
   else []).
Proof. unfold scan. now rewrite scan_from. Qed.

Lemma scan_not_sustained self curr_time frame :
  sustained self curr_time = false ->
  scan self curr_time frame = (any_candidate self frame, []).
Proof. intros H. now rewrite scan_spec, H. Qed.

Lemma scan_no_candidate self curr_time frame :
  any_candidate self frame = false ->
  scan self curr_time frame = (false, []).
Proof.
  intros H. rewrite scan_spec, H. f_equal.
  destruct (sustained _ _); [|reflexivity].
  induction frame as [|r frame IH]; [reflexivity|].
  simpl in *. apply orb_false_iff in H as [Hr Hf].
  rewrite Hr. now apply IH.
Qed.

(** Record updates that write back what is already there. *)
Lemma set_detections_same (self : t) :
  set_detections self (detections self) = self.
Proof. now destruct self. Qed.

Lemma refresh_same (self : t) : refresh self (detections self) = self.
Proof.
  unfold refresh. destruct (0 <? _)%nat; [apply set_detections_same|reflexivity].
Qed.

Lemma refresh_time_detected self out :
  time_detected (refresh self out) = time_detected self.
Proof. unfold refresh. now destruct (0 <? _)%nat. Qed.

Lemma nonempty_length {A} (l : list A) :
  l <> [] -> (0 <? length l)%nat = true.
Proof. destruct l; [congruence|reflexivity]. Qed.

(** ** [get_detections], branch by branch *)

(** A frame with a candidate: the absence handling is skipped. *)
Lemma get_detections_present self curr_time frame :
  any_candidate self frame = true ->
  get_detections self curr_time frame =
  (start_streak (refresh self (snd (scan self curr_time frame)))
     curr_time true,
   snd (scan self curr_time frame)).
Proof.
  intros H. unfold get_detections, absence.
  rewrite scan_spec, H. simpl. now rewrite andb_false_r.
Qed.

(** No streak is running and the frame holds no candidate. *)
Lemma get_detections_idle self curr_time frame :
  is_set self = false ->
  any_candidate self frame = false ->
  get_detections self curr_time frame = (self, []).
Proof.
  intros Hs Hc. unfold get_detections, absence.
  now rewrite (scan_no_candidate _ _ _ Hc), Hs.
Qed.

(** Line 72: the cached list is handed out again. *)
Lemma get_detections_grace self curr_time frame :
  is_set self = true ->
  any_candidate self frame = false ->
  in_grace self curr_time = true ->
  get_detections self curr_time frame = (self, detections self).
Proof.
  intros Hs Hc Hg. unfold get_detections, absence.
  rewrite (scan_no_candidate _ _ _ Hc), Hs, Hg. simpl.
  now rewrite refresh_same.
Qed.

(** Lines 75-78 with a cached list: cache and streak start are dropped. *)
Lemma get_detections_clear self curr_time frame :
  is_set self = true ->
  any_candidate self frame = false ->
  in_grace self curr_time = false ->
  detections self <> [] ->
  get_detections self curr_time frame =
  (set_time_detected (set_detections self []) no_time, []).
Proof.
  intros Hs Hc Hg Hd. unfold get_detections, absence.
  now rewrite (scan_no_candidate _ _ _ Hc), Hs, Hg, (nonempty_length _ Hd).
Qed.

(** Line 75 with nothing cached: the guard fails and nothing changes. *)
Lemma get_detections_stale self curr_time frame :
  is_set self = true ->
  any_candidate self frame = false ->
  in_grace self curr_time = false ->
  detections self = [] ->
  get_detections self curr_time frame = (self, []).
Proof.
  intros Hs Hc Hg Hd. unfold get_detections, absence.
  now rewrite (scan_no_candidate _ _ _ Hc), Hs, Hg, Hd.
Qed.

(** A running streak and a frame with a candidate: the candidates are
    reported once the streak is older than [time_th], and the streak start
    is left alone. *)
Lemma get_detections_streak self curr_time frame :
  is_set self = true ->
  any_candidate self frame = true ->
  get_detections self curr_time frame =
  (let out :=
     if time_th self <? curr_time - time_detected self
     then map report (List.filter (is_candidate self) frame) else [] in
   (refresh self out, out)).
Proof.
  intros Hs Hc. rewrite (get_detections_present _ _ _ Hc), scan_spec.
  unfold sustained. rewrite Hs. simpl. f_equal.
  pose proof (set_not_unset _ Hs) as Hu.
  unfold start_streak, is_unset in *.
  now rewrite refresh_time_detected, Hu.
Qed.

(** The frame that starts a streak: line 87 stores the clock reading,
    nothing is returned and the cache is not touched. *)
Lemma get_detections_first self curr_time frame :
  is_unset self = true ->
  any_candidate self frame = true ->
  get_detections self curr_time frame =
  (set_time_detected self curr_time, []).
Proof.
  intros Hu Hc. rewrite (get_detections_present _ _ _ Hc), scan_spec.
  unfold sustained. rewrite (unset_not_set _ Hu). simpl.
  unfold start_streak, refresh. simpl. now rewrite Hu.
Qed.

Lemma get_detections_not_set_out self curr_time frame :
  is_set self = false ->
  snd (get_detections self curr_time frame) = [].
Proof.
  intros Hs. destruct (any_candidate self frame) eqn:Hc.
  - rewrite (get_detections_present _ _ _ Hc), scan_spec.
    unfold sustained. now rewrite Hs.
  - now rewrite (get_detections_idle _ _ _ Hs Hc).
Qed.

(** ** What a call leaves alone *)

Lemma same_config_refl a : same_config a a.
Proof. now repeat split. Qed.

Lemma same_config_trans a b c :
  same_config a b -> same_config b c -> same_config a c.
Proof.
  intros (H1 & H2 & H3) (H4 & H5 & H6). repeat split; congruence.
Qed.

Lemma get_detections_config self curr_time frame :
  same_config self (fst (get_detections self curr_time frame)).
Proof.
  unfold get_detections, absence, refresh, start_streak.
  destruct (scan self curr_time frame) as [b out].
  destruct (is_set self && negb b); [destruct (in_grace _ _)|];
    repeat (match goal with |- context [if ?c then _ else _] =>
              destruct c end; simpl);
    unfold same_config; simpl; auto.
Qed.

Lemma is_candidate_config a b r :
  same_config a b -> is_candidate a r = is_candidate b r.
Proof. intros (Hl & Hs & _). unfold is_candidate. now rewrite Hl, Hs. Qed.

Lemma any_candidate_config a b frame :
  same_config a b -> any_candidate a frame = any_candidate b frame.
Proof.
  intros H. unfold any_candidate.
  induction frame as [|r frame IH]; [reflexivity|].
  simpl. now rewrite IH, (is_candidate_config a b r H).
Qed.

Lemma candidate_of_config a b l frame :
  same_config a b -> candidate_of a l frame = candidate_of b l frame.
Proof.
  intros H. unfold candidate_of.
  induction frame as [|r frame IH]; [reflexivity|].
  simpl. now rewrite IH, (is_candidate_config a b r H).
Qed.

Lemma candidate_of_any self l frame :
  candidate_of self l frame = true -> any_candidate self frame = true.
Proof.
  unfold candidate_of, any_candidate.
  induction frame as [|r frame IH]; simpl; [easy|].
  intros [H|H]%orb_true_iff.
  - apply andb_true_iff in H as [-> _]. reflexivity.
  - rewrite (IH H). apply orb_true_r.
Qed.

(** The labels of the list built by the loop are the labels of the
    frame's candidates. *)
Lemma reports_candidates self l frame :
  reports l (map report (List.filter (is_candidate self) frame)) <->
  candidate_of self l frame = true.
Proof.
  unfold reports, candidate_of.
  induction frame as [|r frame IH]; simpl; [easy|].
  destruct (is_candidate self r) eqn:Hr; simpl.
  - rewrite IH, orb_true_iff, bool_decide_eq_true. tauto.
  - exact IH.
Qed.

Lemma run_app self calls1 calls2 :
  run self (calls1 ++ calls2) =
  (fst (run (fst (run self calls1)) calls2),
   snd (run self calls1) ++ snd (run (fst (run self calls1)) calls2)).
Proof.
  revert self. induction calls1 as [|[now frame] calls1 IH]; intros self.
  - simpl. now destruct (run self calls2).
  - simpl. destruct (get_detections self now frame) as [self' out].
    rewrite IH. destruct (run self' calls1) as [mid outs1]. simpl.
    reflexivity.
Qed.

Lemma run_cons self curr_time frame calls :
  run self ((curr_time, frame) :: calls) =
  (fst (run (fst (get_detections self curr_time frame)) calls),
   snd (get_detections self curr_time frame)
     :: snd (run (fst (get_detections self curr_time frame)) calls)).
Proof.
  simpl. destruct (get_detections self curr_time frame) as [self' out].
  simpl. now destruct (run self' calls).
Qed.

Lemma run_config self calls : same_config self (fst (run self calls)).
Proof.
  revert self. induction calls as [|[now frame] calls IH]; intros self.
  - apply same_config_refl.
  - simpl. pose proof (get_detections_config self now frame) as H.
    destruct (get_detections self now frame) as [self' out].
    specialize (IH self'). destruct (run self' calls) as [final outs].
    simpl in *. eapply same_config_trans; eassumption.
Qed.

(** ** Calls made while no streak is running *)

(** C9: when the streak start is unset (the test [time_detected < 0.0]
    holds, as it does for the sentinel [-1.0]), [get_detections] returns
    the empty list whatever the frame holds and whatever is cached. *)
Theorem unset_returns_nothing self curr_time frame :
  is_unset self = true ->
  snd (get_detections self curr_time frame) = [].
Proof.
  intros Hu. apply get_detections_not_set_out. now apply unset_not_set.
Qed.

Lemma unset_returns_nothing_witness :
  let self := set_detections cat_watch [cat_report] in
  is_unset self = true /\ any_candidate self [cat; cat] = true /\
  snd (get_detections self 10 [cat; cat]) = [].
Proof.
  split; [reflexivity|]. split; [reflexivity|].
  apply (unset_returns_nothing (set_detections cat_watch [cat_report]) 10).
  reflexivity.
Defined.

(** C6: line 87 runs after the list to return has been built, so a call
    entered with the streak start unset and a frame that holds candidates
    returns the empty list and only records the clock reading as the new
    streak start; [time_th] plays no part, be it zero or negative. *)
Theorem first_frame_never_reported self curr_time frame :
  is_unset self = true ->
  any_candidate self frame = true ->
  snd (get_detections self curr_time frame) = [] /\
  fst (get_detections self curr_time frame) =
    set_time_detected self curr_time.
Proof.
  intros Hu Hc. now rewrite (get_detections_first _ _ _ Hu Hc).
Qed.

Lemma first_frame_never_reported_witness :
  let self := init {[ "cat" ]} 0.5 (-1) in
  (time_th self <? 0) = true /\
  snd (get_detections self 10 [cat]) = [] /\
  fst (get_detections self 10 [cat]) = set_time_detected self 10.
Proof.
  split; [reflexivity|].
  apply (first_frame_never_reported (init {[ "cat" ]} 0.5 (-1)) 10 [cat]);
    reflexivity.
Defined.

Lemma get_detections_nil self curr_time frame :
  any_candidate self frame = false ->
  get_detections self curr_time frame = get_detections self curr_time [].
Proof.
  intros Hc. unfold get_detections.
  now rewrite (scan_no_candidate _ _ _ Hc).
Qed.

Lemma run_idle self calls :
  idle self ->
  never_present self calls = true ->
  run self calls = (self, repeat [] (length calls)).
Proof.
  intros [Hu Hd]. induction calls as [|[now frame] calls IH]; intros Hq.
  - reflexivity.
  - simpl in Hq. apply andb_true_iff in Hq as [Hc Hq].
    apply negb_true_iff in Hc. simpl.
    rewrite (get_detections_idle _ _ _ (unset_not_set _ Hu) Hc).
    now rewrite (IH Hq).
Qed.

(** C8: from the idle state (streak start unset, nothing cached) a call
    whose frame holds no candidate returns the empty list and leaves every
    attribute as it was, so any number of such calls does; and in any
    state a frame without candidates is treated exactly like the empty
    frame. *)
Theorem idle_is_stable self curr_time frame calls :
  any_candidate self frame = false ->
  never_present self calls = true ->
  (idle self ->
     get_detections self curr_time frame = (self, []) /\
     run self calls = (self, repeat [] (length calls))) /\
  get_detections self curr_time frame = get_detections self curr_time [].
Proof.
  intros Hc Hq. split.
  - intros Hi. split.
    + destruct Hi as [Hu _].
      now apply get_detections_idle; [apply unset_not_set|].
    + now apply run_idle.
  - now apply get_detections_nil.
Qed.

Lemma idle_is_stable_witness :
  let dog := {| bbox := [1; 2; 3; 4]; label := "dog"; score := 0.99 |} in
  let faint := {| bbox := [0; 0; 1; 1]; label := "cat"; score := 0.5 |} in
  idle cat_watch /\
  get_detections cat_watch 10 [dog; faint] = (cat_watch, []) /\
  run cat_watch [(11, []); (12, [faint]); (15, [dog])] =
    (cat_watch, [[]; []; []]) /\
  get_detections cat_watch 10 [dog; faint] = get_detections cat_watch 10 [].
Proof.
  intros dog faint.
  assert (Hi : idle cat_watch) by (split; reflexivity).
  split; [exact Hi|].
  destruct (idle_is_stable cat_watch 10 [dog; faint]
              [(11, []); (12, [faint]); (15, [dog])]
              eq_refl eq_refl) as [H1 H2].
  destruct (H1 Hi) as [H3 H4].
  split; [exact H3|]. split; [exact H4|exact H2].
Defined.

(** ** The cache and the streak start across one call *)

(** C7: after a call the cached list is what it was, or it is the
    non-empty list the call returns (line 82), or it is empty because the
    call went through lines 75-78: a streak was running, the frame held no
    candidate and the grace test of line 69 failed. *)
Theorem cache_only_emptied_by_timeout self curr_time frame :
  let self' := fst (get_detections self curr_time frame) in
  let out := snd (get_detections self curr_time frame) in
  detections self' = detections self \/
  (detections self' = out /\ out <> []) \/
  (detections self' = [] /\ is_set self = true /\
   any_candidate self frame = false /\ in_grace self curr_time = false).
Proof.
  simpl. destruct (any_candidate self frame) eqn:Hc.
  - rewrite (get_detections_present _ _ _ Hc). simpl.
    unfold start_streak, refresh.
    destruct (snd (scan self curr_time frame)) as [|v out] eqn:Ho; simpl.
    + left. now destruct (is_unset self).
    + right; left. split; [|discriminate].
      simpl. now destruct (is_unset _).
  - destruct (is_set self) eqn:Hs.
    + destruct (in_grace self curr_time) eqn:Hg.
      * rewrite (get_detections_grace _ _ _ Hs Hc Hg). now left.
      * destruct (detections self) as [|v vs] eqn:Hd.
        -- rewrite (get_detections_stale _ _ _ Hs Hc Hg Hd). now left.
        -- rewrite (get_detections_clear _ _ _ Hs Hc Hg)
             by (rewrite Hd; discriminate).
           right; right. now repeat split.
    + rewrite (get_detections_idle _ _ _ Hs Hc). now left.
Qed.

(** The streak start of a running streak survives a call unless the call
    goes through lines 75-78, which put the sentinel back. *)
Lemma streak_start_kept self curr_time frame :
  is_set self = true ->
  let self' := fst (get_detections self curr_time frame) in
  time_detected self' = time_detected self \/
  (time_detected self' = no_time /\ any_candidate self frame = false /\
   in_grace self curr_time = false /\ detections self <> []).
Proof.
  intros Hs. simpl. destruct (any_candidate self frame) eqn:Hc.
  - rewrite (get_detections_streak _ _ _ Hs Hc). simpl.
    left. apply refresh_time_detected.
  - destruct (in_grace self curr_time) eqn:Hg.
    + rewrite (get_detections_grace _ _ _ Hs Hc Hg). now left.
    + destruct (detections self) as [|v vs] eqn:Hd.
      * rewrite (get_detections_stale _ _ _ Hs Hc Hg Hd). now left.
      * rewrite (get_detections_clear _ _ _ Hs Hc Hg)
          by (rewrite Hd; discriminate).
        right. now repeat split.
Qed.

(** C10: the test that chooses between handing out the cache and clearing
    it compares [curr_time - time_detected] with [_absent_time_th], and a
    running streak keeps its [time_detected] from call to call: a frame
    with a candidate leaves it alone, and otherwise it is only ever put
    back to the sentinel by the clear itself.  So whatever calls came
    before, a frame without candidates is answered by that one
    comparison: while [curr_time - time_detected < 2] holds the call
    hands out the cache and changes nothing, and once it fails the call
    takes lines 73-78, where nothing is returned, nothing stays cached,
    and a cache that was not empty takes the streak start with it,
    however recently a candidate was seen. *)
Theorem grace_anchored_to_streak_start start history curr_time frame :
  let self := fst (run start history) in
  let self' := fst (get_detections self curr_time frame) in
  is_set self = true ->
  (time_detected self' = time_detected self \/
   time_detected self' = no_time) /\
  (any_candidate self frame = true ->
   time_detected self' = time_detected self) /\
  (any_candidate self frame = false ->
   (curr_time - time_detected self <? _absent_time_th) = true ->
   get_detections self curr_time frame = (self, detections self)) /\
  (any_candidate self frame = false ->
   (curr_time - time_detected self <? _absent_time_th) = false ->
   snd (get_detections self curr_time frame) = [] /\
   detections self' = [] /\
   (detections self <> [] -> time_detected self' = no_time)).
Proof.
  intros self self' Hs. subst self'. split; [|split; [|split]].
  - destruct (streak_start_kept self curr_time frame Hs) as [H|[H _]];
      [now left|now right].
  - intros Hc. rewrite (get_detections_streak _ _ _ Hs Hc). simpl.
    apply refresh_time_detected.
  - intros Hc Hg. change (in_grace self curr_time = true) in Hg.
    now apply get_detections_grace.
  - intros Hc Hg. change (in_grace self curr_time = false) in Hg.
    destruct (detections self) as [|v vs] eqn:Hd.
    + rewrite (get_detections_stale _ _ _ Hs Hc Hg Hd). simpl.
      repeat split; [exact Hd|congruence].
    + rewrite (get_detections_clear _ _ _ Hs Hc Hg)
        by (rewrite Hd; discriminate).
      now repeat split.
Qed.

Lemma grace_anchored_to_streak_start_witness :
  let early := fst (run cat_watch [(10, [cat]); (11.5, [cat])]) in
  let late := fst (run cat_watch [(10, [cat]); (11.5, [cat]); (13, [cat])]) in
  (time_detected early = 10 /\
   get_detections early 11.9 [] = (early, [cat_report])) /\
  (time_detected late = 10 /\ detections late = [cat_report] /\
   snd (get_detections late 13.5 []) = [] /\
   detections (fst (get_detections late 13.5 [])) = [] /\
   time_detected (fst (get_detections late 13.5 [])) = no_time).
Proof.
  intros early late. split.
  - split; [reflexivity|].
    destruct (grace_anchored_to_streak_start cat_watch
                [(10, [cat]); (11.5, [cat])] 11.9 [] eq_refl)
      as (_ & _ & H & _).
    exact (H eq_refl eq_refl).
  - destruct (grace_anchored_to_streak_start cat_watch
                [(10, [cat]); (11.5, [cat]); (13, [cat])] 13.5 [] eq_refl)
      as (_ & _ & _ & H).
    destruct (H eq_refl eq_refl) as (H1 & H2 & H3).
    split; [reflexivity|]. split; [reflexivity|].
    split; [exact H1|]. split; [exact H2|].
    apply H3. discriminate.
Defined.

(** ** Absence *)

(** C2: the reset on sustained absence is skipped when nothing is
    cached.  A streak started at clock 10 and never verified meets an
    empty frame at clock 13: the grace test fails, but the guard of line
    75 keeps line 78 from running and [time_detected] stays 10, where the
    same branch with something cached puts the sentinel back.  The streak
    start then outlives any absence: empty frames at 3600 and a single
    cat frame at 7200 give a report at once. *)
Theorem accumulating_streak_not_reset :
  let self := fst (run cat_watch [(10, [cat])]) in
  let self' := fst (get_detections self 13 []) in
  (is_set self = true /\ detections self = [] /\
   any_candidate self [] = false /\ in_grace self 13 = false /\
   time_detected self' = 10 /\ is_unset self' = false /\
   ~ (detections self' = [] /\ time_detected self' = no_time)) /\
  snd (run cat_watch [(10, [cat]); (13, []); (3600, []); (7200, [cat])]) =
    [[]; []; []; [cat_report]].
Proof.
  split; [|reflexivity].
  repeat (split; [reflexivity|]). intros [_ H]. vm_compute in H.
  apply (f_equal (fun x => x <? 0)) in H. vm_compute in H. discriminate.
Qed.

(** What lines 73-78 do in full: with a streak running, a frame without
    candidates that fails the grace test returns the empty list and
    leaves the cache empty; the streak start goes back to the sentinel
    when something was cached on entry, whereas with nothing cached the
    whole state, streak start included, is left as it was. *)
Lemma full_reset_needs_cache self curr_time frame :
  is_set self = true ->
  any_candidate self frame = false ->
  in_grace self curr_time = false ->
  let self' := fst (get_detections self curr_time frame) in
  snd (get_detections self curr_time frame) = [] /\
  detections self' = [] /\
  (detections self <> [] ->
     time_detected self' = no_time /\ is_unset self' = true) /\
  (detections self = [] -> self' = self).
Proof.
  intros Hs Hc Hg. simpl.
  destruct (detections self) as [|v vs] eqn:Hd.
  - rewrite (get_detections_stale _ _ _ Hs Hc Hg Hd). simpl.
    split; [reflexivity|]. split; [exact Hd|].
    split; [congruence|reflexivity].
  - rewrite (get_detections_clear _ _ _ Hs Hc Hg)
      by (rewrite Hd; discriminate).
    simpl. split; [reflexivity|]. split; [reflexivity|].
    split; [now split|discriminate].
Qed.

Lemma full_reset_needs_cache_witness :
  let self := fst (run cat_watch [(10, [cat]); (11.5, [cat])]) in
  let self' := fst (get_detections self 12 []) in
  detections self = [cat_report] /\
  snd (get_detections self 12 []) = [] /\
  detections self' = [] /\ time_detected self' = no_time.
Proof.
  intros self self'.
  destruct (full_reset_needs_cache self 12 [] eq_refl eq_refl eq_refl)
    as (H1 & H2 & H3 & _).
  split; [reflexivity|]. split; [exact H1|]. split; [exact H2|].
  apply H3. discriminate.
Defined.

(** C1: the grace test measures from the start of the streak, not from
    the moment the candidates dropped out.  The cat is seen at clocks 10,
    10.5 and 11.5 and reported at 11.5; the empty frame at clock 12 comes
    0.5 s after it was last seen, yet [12 - 10 < 2] fails, so the call
    returns the empty list and drops the cache instead of handing out the
    cached report. *)
Theorem grace_measured_from_streak_start :
  let calls := [(10, [cat]); (10.5, [cat]); (11.5, [cat]); (12, [])] in
  snd (run cat_watch calls) = [[]; []; [cat_report]; []] /\
  detections (fst (run cat_watch calls)) = [] /\
  time_detected (fst (run cat_watch calls)) = no_time.
Proof. repeat split; reflexivity. Qed.

(** ** The worked example *)

(** C3, as stated, fails: a streak started at clock 0 stores 0.0, which
    passes neither [time_detected > 0.0] nor [time_detected < 0.0], so the
    call at clock 1.5 reports nothing. *)
Lemma scenario_from_clock_zero :
  let calls := [(0, [cat]); (0.5, [cat]); (1.5, [cat])] in
  time_detected (fst (get_detections cat_watch 0 [cat])) = 0 /\
  snd (run cat_watch calls) = [[]; []; []] /\
  snd (run cat_watch calls) <> [[]; []; [cat_report]].
Proof.
  intros calls. split; [reflexivity|]. split; [reflexivity|].
  vm_compute. discriminate.
Qed.

(** C3, amended: the same detector and frames at clock readings
    [t0], [t1], [t2] with [t0] strictly positive, [t1 - t0] not above 1.0
    and [t2 - t0] above 1.0 (10, 10.5 and 11.5, say): the first call
    returns nothing and stores [t0] as the streak start, the second
    returns nothing, the third returns the cat without its score. *)
Theorem scenario_from_positive_clock (t0 t1 t2 : float) :
  (0 <? t0) = true ->
  (1 <? t1 - t0) = false ->
  (1 <? t2 - t0) = true ->
  time_detected (fst (get_detections cat_watch t0 [cat])) = t0 /\
  snd (run cat_watch [(t0, [cat]); (t1, [cat]); (t2, [cat])]) =
    [[]; []; [cat_report]].
Proof.
  intros H0 H1 H2.
  assert (Hc : forall s, same_config cat_watch s ->
                         any_candidate s [cat] = true).
  { intros s Hs. now rewrite <- (any_candidate_config _ _ _ Hs). }
  pose proof (get_detections_first cat_watch t0 [cat] eq_refl eq_refl) as E0.
  set (s1 := set_time_detected cat_watch t0) in *.
  assert (Hs1 : is_set s1 = true) by exact H0.
  pose proof (get_detections_streak s1 t1 [cat] Hs1 eq_refl) as E1.
  pose proof (get_detections_streak s1 t2 [cat] Hs1 eq_refl) as E2.
  simpl in E1, E2.
  change (time_th s1) with 1 in E1, E2.
  change (time_detected s1) with t0 in E1, E2.
  rewrite H1 in E1. rewrite H2 in E2.
  change (refresh s1 []) with s1 in E1.
  split; [now rewrite E0|].
  simpl. rewrite E0, E1, E2. reflexivity.
Qed.

Lemma scenario_from_positive_clock_witness :
  time_detected (fst (get_detections cat_watch 10 [cat])) = 10 /\
  snd (run cat_watch [(10, [cat]); (10.5, [cat]); (11.5, [cat])]) =
    [[]; []; [cat_report]].
Proof.
  apply (scenario_from_positive_clock 10 10.5 11.5); reflexivity.
Defined.

(** ** Reporting along a sequence of calls *)

(** One call keeps label [l] out of the returned list and out of the
    cache, when the cache is free of it and the test of line 64 fails
    should the frame hold a candidate with that label. *)
Lemma step_keeps_unreported self l curr_time frame :
  ~ reports l (detections self) ->
  (candidate_of self l frame = true -> sustained self curr_time = false) ->
  ~ reports l (snd (get_detections self curr_time frame)) /\
  ~ reports l (detections (fst (get_detections self curr_time frame))).
Proof.
  intros Hd Hl. destruct (any_candidate self frame) eqn:Hc.
  - rewrite (get_detections_present _ _ _ Hc), scan_spec. simpl.
    assert (Ho : ~ reports l
               (if sustained self curr_time
                then map report (List.filter (is_candidate self) frame)
                else [])).
    { destruct (sustained self curr_time) eqn:Hs; [|now intros []].
      intros H%reports_candidates. specialize (Hl H). discriminate. }
    split; [exact Ho|].
    unfold start_streak, refresh.
    repeat (match goal with |- context [if ?c then _ else _] =>
              destruct c end; simpl); assumption.
  - destruct (is_set self) eqn:Hs.
    + destruct (in_grace self curr_time) eqn:Hg.
      * now rewrite (get_detections_grace _ _ _ Hs Hc Hg).
      * destruct (detections self) as [|v vs] eqn:Hv.
        -- rewrite (get_detections_stale _ _ _ Hs Hc Hg Hv). simpl.
           now rewrite Hv.
        -- rewrite (get_detections_clear _ _ _ Hs Hc Hg)
             by (rewrite Hv; discriminate).
           simpl. split; now intros [].
    + rewrite (get_detections_idle _ _ _ Hs Hc). simpl.
      split; [now intros []|exact Hd].
Qed.

Lemma run_keeps_unreported l calls :
  forall self,
    ~ reports l (detections self) ->
    within_sustain l self calls ->
    Forall (fun out => ~ reports l out) (snd (run self calls)).
Proof.
  induction calls as [|[now frame] calls IH]; intros self Hd Hw.
  - constructor.
  - destruct Hw as [Hl Hw]. simpl.
    destruct (step_keeps_unreported self l now frame Hd Hl) as [Ho Hd'].
    specialize (IH _ Hd' Hw).
    destruct (get_detections self now frame) as [self' out].
    simpl in *.
    destruct (run self' calls) as [final outs]. simpl in *.
    now constructor.
Qed.

(** What the test of line 64 does guarantee: take a freshly constructed
    detector and any sequence of calls in which, whenever label [l] is a
    candidate of the frame, the stored [time_detected] is not more than
    [time_th] old.  Then no call returns a list that mentions [l]. *)
Lemma no_premature_report ls sc tm l calls :
  within_sustain l (init ls sc tm) calls ->
  Forall (fun out => ~ reports l out) (snd (run (init ls sc tm) calls)).
Proof.
  intros Hw. apply run_keeps_unreported; [|exact Hw]. now intros [].
Qed.

Lemma no_premature_report_witness :
  let dog := {| bbox := [2; 2; 5; 5]; label := "dog"; score := 0.8 |} in
  let calls :=
    [(10, [dog]); (10.5, [dog; cat]); (11, [cat]); (11.5, [dog])] in
  let self := init {[ "cat"; "dog" ]} 0.5 1 in
  snd (run self calls) =
    [[]; []; []; [{| v_label := "dog"; v_bbox := [2; 2; 5; 5] |}]] /\
  Forall (fun out => ~ reports "cat" out) (snd (run self calls)).
Proof.
  intros dog calls self. split; [reflexivity|].
  apply (no_premature_report {[ "cat"; "dog" ]} 0.5 1 "cat" calls).
  vm_compute. repeat (split; [intros _; reflexivity|]).
  split; [discriminate|exact I].
Defined.

(** C4: a label seen for single frames only is reported all the same.
    The cat is in the frame at clock 10, gone at clock 13 (3 s later, past
    the 2 s of [_absent_time_th]) and back for one frame at clock 20.  The
    call at 13 finds nothing cached, so the guard of line 75 keeps the
    streak start of 10; the call at 20 then sees a streak 10 s old and
    reports the cat, which was never present for longer than one frame. *)
Theorem single_frames_reported :
  let calls := [(10, [cat]); (13, []); (20, [cat])] in
  in_grace (fst (run cat_watch [(10, [cat])])) 13 = false /\
  time_detected (fst (run cat_watch [(10, [cat]); (13, [])])) = 10 /\
  snd (run cat_watch calls) = [[]; []; [cat_report]] /\
  reports "cat" (List.last (snd (run cat_watch calls)) []).
Proof.
  intros calls. repeat (split; [reflexivity|]).
  vm_compute. now left.
Qed.

(** A candidate met while the streak is older than [time_th] is in the
    returned list. *)
Lemma sustained_candidate_reported self l curr_time frame :
  sustained self curr_time = true ->
  candidate_of self l frame = true ->
  reports l (snd (get_detections self curr_time frame)).
Proof.
  intros Hs Hl.
  rewrite (get_detections_present _ _ _ (candidate_of_any _ _ _ Hl)).
  rewrite scan_spec, Hs. simpl. now apply reports_candidates.
Qed.

Lemma always_present_config a b l calls :
  same_config a b -> always_present a l calls = always_present b l calls.
Proof.
  intros H. unfold always_present.
  induction calls as [|c calls IH]; [reflexivity|].
  simpl. now rewrite IH, (candidate_of_config a b l (snd c) H).
Qed.

(** While every frame holds a candidate, a running streak keeps its
    start. *)
Lemma run_streak_start l calls :
  forall self,
    is_set self = true ->
    always_present self l calls = true ->
    time_detected (fst (run self calls)) = time_detected self.
Proof.
  induction calls as [|[now frame] calls IH]; intros self Hs Hp.
  - reflexivity.
  - simpl in Hp. apply andb_true_iff in Hp as [Hl Hp].
    pose proof (get_detections_config self now frame) as Hcfg.
    pose proof (get_detections_streak self now frame Hs
                  (candidate_of_any _ _ _ Hl)) as E.
    simpl in E. simpl.
    destruct (get_detections self now frame) as [self' out].
    injection E as E1 _. simpl in Hcfg.
    assert (Ht : time_detected self' = time_detected self)
      by (rewrite E1; apply refresh_time_detected).
    specialize (IH self').
    destruct (run self' calls) as [final outs]. simpl in *.
    rewrite IH; [exact Ht| |].
    + unfold is_set in *. now rewrite Ht.
    + now rewrite <- (always_present_config self self' l calls Hcfg).
Qed.

(** Comparisons of binary64 values chain as they do for numbers. *)
Lemma SFltb_SFleb_trans (x y z : spec_float) :
  SFltb x y = true -> SFleb y z = true -> SFltb x z = true.
Proof.
  unfold SFltb, SFleb.
  destruct x as [[]|[]| |[] mx ex], y as [[]|[]| |[] my ey],
           z as [[]|[]| |[] mz ez]; simpl;
    try reflexivity; try discriminate.
  all: change (Pcompare ?a ?b Eq) with (Pos.compare a b).
  all: destruct (Z.compare_spec ex ey), (Z.compare_spec ey ez),
         (Z.compare_spec ex ez); try lia; try reflexivity;
         try discriminate; subst.
  all: destruct (Pos.compare_spec mx my), (Pos.compare_spec my mz),
         (Pos.compare_spec mx mz); simpl; try lia; try reflexivity;
         try discriminate.
Qed.

Lemma ltb_leb_trans (a b c : float) :
  (a <? b) = true -> (b <=? c) = true -> (a <? c) = true.
Proof. rewrite !ltb_spec, leb_spec. apply SFltb_SFleb_trans. Qed.

(** A streak that starts with the calls: streak start unset, first call
    at a strictly positive clock reading [t1], at least one more call,
    a candidate with label [l] in every frame, and the last call at [tn]
    with [tn - t1] above [time_th]. *)
Lemma fresh_streak_reports self l t1 f1 calls tn fn :
  is_unset self = true ->
  (0 <? t1) = true ->
  always_present self l ((t1, f1) :: calls ++ [(tn, fn)]) = true ->
  (time_th self <? tn - t1) = true ->
  reports l (List.last (snd (run self ((t1, f1) :: calls ++ [(tn, fn)]))) []).
Proof.
  intros Hu H1 Hp Hn.
  simpl in Hp. apply andb_true_iff in Hp as [Hf1 Hp].
  unfold always_present in Hp. rewrite forallb_app in Hp.
  apply andb_true_iff in Hp as [Hp Hfn]. simpl in Hfn.
  rewrite andb_true_r in Hfn.
  rewrite run_cons, run_app, run_cons.
  rewrite (get_detections_first _ _ _ Hu (candidate_of_any _ _ _ Hf1)).
  cbn [fst snd run].
  set (s1 := set_time_detected self t1).
  assert (Hc1 : same_config self s1) by (now repeat split).
  assert (Hs1 : is_set s1 = true) by exact H1.
  set (sm := fst (run s1 calls)).
  assert (Hcm : same_config self sm).
  { eapply same_config_trans; [exact Hc1|apply run_config]. }
  assert (Htm : time_detected sm = t1).
  { unfold sm. rewrite (run_streak_start l); [reflexivity|exact Hs1|].
    now rewrite <- (always_present_config self s1 l calls Hc1). }
  assert (Hsus : sustained sm tn = true).
  { unfold sustained, is_set. rewrite Htm, H1. simpl.
    destruct Hcm as (_ & _ & <-). exact Hn. }
  rewrite app_comm_cons, last_last.
  apply sustained_candidate_reported; [exact Hsus|].
  now rewrite <- (candidate_of_config _ _ _ _ Hcm).
Qed.

(** A streak that is already running: a candidate with label [l] in
    every frame, and the last call more than [time_th] after the stored
    streak start. *)
Lemma running_streak_reports self l pre tn fn :
  is_set self = true ->
  always_present self l (pre ++ [(tn, fn)]) = true ->
  (time_th self <? tn - time_detected self) = true ->
  reports l (List.last (snd (run self (pre ++ [(tn, fn)]))) []).
Proof.
  intros Hs Hp Hn.
  unfold always_present in Hp. rewrite forallb_app in Hp.
  apply andb_true_iff in Hp as [Hp Hfn]. simpl in Hfn.
  rewrite andb_true_r in Hfn.
  rewrite run_app, run_cons. cbn [fst snd run].
  set (sm := fst (run self pre)).
  assert (Hcm : same_config self sm) by apply run_config.
  assert (Htm : time_detected sm = time_detected self)
    by (unfold sm; now apply (run_streak_start l)).
  assert (Hsus : sustained sm tn = true).
  { unfold sustained, is_set in *. rewrite Htm, Hs. simpl.
    destruct Hcm as (_ & _ & <-). exact Hn. }
  rewrite last_last.
  apply sustained_candidate_reported; [exact Hsus|].
  now rewrite <- (candidate_of_config _ _ _ _ Hcm).
Qed.

(** C5, as stated, fails in three ways.  With a negative [time_th] the
    one call that starts the streak already spans an interval longer than
    [time_th] and returns nothing; a streak started at clock 0 never
    reports, however long the cat stays; and when the wall clock has been
    set back, so that the stored streak start (100) lies after the calls
    (10 and 12), the age the code computes is negative and nothing is
    reported either. *)
Lemma present_yet_never_reported :
  (let self := init {[ "cat" ]} 0.5 (-1) in
   let calls := [(10, [cat])] in
   always_present self "cat" calls = true /\
   (time_th self <? 10 - 10) = true /\
   ~ Exists (reports "cat") (snd (run self calls))) /\
  (let calls := [(0, [cat]); (0.5, [cat]); (1.5, [cat])] in
   always_present cat_watch "cat" calls = true /\
   (time_th cat_watch <? 1.5 - 0) = true /\
   ~ Exists (reports "cat") (snd (run cat_watch calls))) /\
  (let self := fst (run cat_watch [(100, [cat])]) in
   let calls := [(10, [cat]); (12, [cat])] in
   is_set self = true /\
   always_present self "cat" calls = true /\
   (time_th self <? 12 - 10) = true /\
   (12 - 10 <=? 12 - time_detected self) = false /\
   ~ Exists (reports "cat") (snd (run self calls))).
Proof.
  split; [|split].
  - split; [reflexivity|]. split; [reflexivity|].
    change (snd (run (init {[ "cat" ]} 0.5 (-1)) [(10, [cat])]))
      with [@nil verified].
    rewrite Exists_cons, Exists_nil. unfold reports. simpl. tauto.
  - split; [reflexivity|]. split; [reflexivity|].
    change (snd (run cat_watch [(0, [cat]); (0.5, [cat]); (1.5, [cat])]))
      with [@nil verified; []; []].
    rewrite !Exists_cons, Exists_nil. unfold reports. simpl. tauto.
  - repeat (split; [reflexivity|]).
    change (snd (run (fst (run cat_watch [(100, [cat])]))
                   [(10, [cat]); (12, [cat])]))
      with [@nil verified; []].
    rewrite !Exists_cons, Exists_nil. unfold reports. simpl. tauto.
Qed.

(** C5, amended: let every frame of the calls hold a candidate with label
    [l] and let the last call come at [tn] with [tn - t1] above [time_th],
    [t1] being the clock reading of the first call.  Then the last call
    returns a list that mentions [l], provided that at the first call
    either the streak start is unset, [t1] is strictly positive and at
    least one more call follows, or a streak is already running whose
    stored start is not later than the first call, in that its age at the
    last call, [tn - time_detected], is at least [tn - t1]. *)
Theorem eventual_report self l pre tn fn :
  let calls := pre ++ [(tn, fn)] in
  let t1 := fst (List.hd (tn, fn) pre) in
  always_present self l calls = true ->
  (time_th self <? tn - t1) = true ->
  (is_unset self = true /\ (0 <? t1) = true /\ pre <> []) \/
  (is_set self = true /\ (tn - t1 <=? tn - time_detected self) = true) ->
  reports l (List.last (snd (run self calls)) []).
Proof.
  intros calls t1 Hp Hn [(Hu & H1 & Hne)|(Hs & Hold)]; subst calls.
  - destruct pre as [|[t f] rest]; [congruence|].
    now apply (fresh_streak_reports self l t f rest tn fn).
  - apply running_streak_reports; [exact Hs|exact Hp|].
    exact (ltb_leb_trans _ _ _ Hn Hold).
Qed.

Lemma eventual_report_witness :
  let dog := {| bbox := [2; 2; 5; 5]; label := "dog"; score := 0.8 |} in
  let watch := init {[ "cat"; "dog" ]} 0.5 0.9 in
  let joined := fst (run watch [(10, [dog])]) in
  (snd (run cat_watch [(10, [cat]); (10.5, [cat]); (11.5, [cat])]) =
     [[]; []; [cat_report]] /\
   reports "cat"
     (List.last
        (snd (run cat_watch ([(10, [cat]); (10.5, [cat])] ++ [(11.5, [cat])])))
        [])) /\
  (time_detected joined = 10 /\
   reports "cat"
     (List.last
        (snd (run joined ([(10.5, [dog; cat])] ++ [(11.5, [cat])]))) [])).
Proof.
  intros dog watch joined. split.
  - split; [reflexivity|].
    apply (eventual_report cat_watch "cat" [(10, [cat]); (10.5, [cat])]
             11.5 [cat]); [reflexivity|reflexivity|].
    left. split; [reflexivity|]. split; [reflexivity|discriminate].
  - split; [reflexivity|].
    apply (eventual_report joined "cat" [(10.5, [dog; cat])] 11.5 [cat]);
      [reflexivity|reflexivity|].
    right. split; reflexivity.
Defined.

(** ** Further properties of [get_detections] *)

(** The list a call returns, with the loop and the branches resolved: a
    frame with candidates yields their reports, in frame order, once the
    streak is older than [time_th], and nothing before; a frame without
    candidates yields the cache while a streak runs and the grace test
    holds, and nothing otherwise. *)
Theorem returned_list self curr_time frame :
  snd (get_detections self curr_time frame) =
  if any_candidate self frame then
    if sustained self curr_time
    then map report (List.filter (is_candidate self) frame)
    else []
  else
    if is_set self && in_grace self curr_time then detections self else [].
Proof.
  destruct (any_candidate self frame) eqn:Hc.
  - now rewrite (get_detections_present _ _ _ Hc), scan_spec.
  - destruct (is_set self) eqn:Hs; simpl.
    + destruct (in_grace self curr_time) eqn:Hg.
      * now rewrite (get_detections_grace _ _ _ Hs Hc Hg).
      * destruct (detections self) as [|v vs] eqn:Hd.
        -- now rewrite (get_detections_stale _ _ _ Hs Hc Hg Hd).
        -- rewrite (get_detections_clear _ _ _ Hs Hc Hg); [reflexivity|].
           rewrite Hd. discriminate.
    + now rewrite (get_detections_idle _ _ _ Hs Hc).
Qed.

(** Whatever a call returns, if it is not empty it is what the cache
    holds afterwards (line 82). *)
Lemma returned_is_cached self curr_time frame :
  snd (get_detections self curr_time frame) <> [] ->
  detections (fst (get_detections self curr_time frame)) =
  snd (get_detections self curr_time frame).
Proof.
  unfold get_detections.
  destruct (scan self curr_time frame) as [b o].
  destruct (absence self curr_time b o) as [s1 out]. simpl.
  destruct out as [|v out]; [congruence|]. intros _.
  unfold start_streak, refresh. simpl.
  now destruct (b && is_unset _).
Qed.

Lemma returned_needs_streak self curr_time frame :
  snd (get_detections self curr_time frame) <> [] -> is_set self = true.
Proof.
  intros H. destruct (is_set self) eqn:Hs; [reflexivity|].
  now rewrite (get_detections_not_set_out _ _ _ Hs) in H.
Qed.

Lemma never_present_config a b calls :
  same_config a b -> never_present a calls = never_present b calls.
Proof.
  intros H. unfold never_present.
  induction calls as [|c calls IH]; [reflexivity|].
  simpl. now rewrite IH, (any_candidate_config a b (snd c) H).
Qed.

(** While the grace test holds, frames without candidates change nothing
    and each returns the cache. *)
Lemma run_grace self calls :
  is_set self = true ->
  never_present self calls = true ->
  all_in_grace (time_detected self) calls = true ->
  run self calls = (self, repeat (detections self) (length calls)).
Proof.
  intros Hs. induction calls as [|[now frame] calls IH]; intros Hq Hg.
  - reflexivity.
  - simpl in Hq, Hg.
    apply andb_true_iff in Hq as [Hc Hq]. apply negb_true_iff in Hc.
    apply andb_true_iff in Hg as [Hn Hg].
    simpl. rewrite (get_detections_grace _ _ _ Hs Hc Hn).
    now rewrite (IH Hq Hg).
Qed.

(** Once a call has returned a non-empty list, every following call whose
    frame holds no candidate and whose clock reading is less than
    [_absent_time_th] after the streak start returns that same list again
    and leaves the detector as the first call left it. *)
Theorem grace_repeats_last_return self curr_time frame calls :
  let self1 := fst (get_detections self curr_time frame) in
  let out1 := snd (get_detections self curr_time frame) in
  out1 <> [] ->
  never_present self calls = true ->
  all_in_grace (time_detected self) calls = true ->
  run self1 calls = (self1, repeat out1 (length calls)).
Proof.
  intros self1 out1 Ho Hq Hg.
  pose proof (returned_needs_streak _ _ _ Ho) as Hs.
  pose proof (returned_is_cached _ _ _ Ho) as Hd.
  assert (Ht : time_detected self1 = time_detected self).
  { destruct (streak_start_kept self curr_time frame Hs)
      as [H|(_ & Hc & Hn & Hv)]; [exact H|].
    exfalso. apply Ho. unfold out1.
    now rewrite (get_detections_clear _ _ _ Hs Hc Hn Hv). }
  fold self1 out1 in Hd. rewrite <- Hd.
  apply run_grace.
  - unfold is_set in *. now rewrite Ht.
  - rewrite <- Hq. symmetry. apply never_present_config.
    apply get_detections_config.
  - now rewrite Ht.
Qed.

Lemma grace_repeats_last_return_witness :
  let self := fst (run cat_watch [(10, [cat])]) in
  let self1 := fst (get_detections self 11.25 [cat; cat]) in
  snd (get_detections self 11.25 [cat; cat]) = [cat_report; cat_report] /\
  run self1 [(11.5, []); (11.75, []); (11.99, [])] =
    (self1, [[cat_report; cat_report]; [cat_report; cat_report];
             [cat_report; cat_report]]).
Proof.
  intros self self1. split; [reflexivity|].
  apply (grace_repeats_last_return self 11.25 [cat; cat]
           [(11.5, []); (11.75, []); (11.99, [])]);
    [vm_compute; discriminate|reflexivity|reflexivity].
Defined.

(** A streak that was started but never led to a report never times
    out: with a streak start stored and nothing cached, frames without
    candidates return nothing and leave the detector, streak start
    included, untouched, however late they come. *)
Theorem unverified_streak_never_expires self calls :
  is_set self = true ->
  detections self = [] ->
  never_present self calls = true ->
  run self calls = (self, repeat [] (length calls)).
Proof.
  intros Hs Hd. induction calls as [|[now frame] calls IH]; intros Hq.
  - reflexivity.
  - simpl in Hq. apply andb_true_iff in Hq as [Hc Hq].
    apply negb_true_iff in Hc. simpl.
    destruct (in_grace self now) eqn:Hg.
    + rewrite (get_detections_grace _ _ _ Hs Hc Hg), Hd.
      now rewrite (IH Hq).
    + rewrite (get_detections_stale _ _ _ Hs Hc Hg Hd).
      now rewrite (IH Hq).
Qed.

Lemma unverified_streak_never_expires_witness :
  let self := fst (run cat_watch [(10, [cat])]) in
  time_detected self = 10 /\
  run self [(11, []); (100, []); (100000, [])] = (self, [[]; []; []]) /\
  snd (get_detections self 100000.5 [cat]) = [cat_report].
Proof.
  intros self. split; [reflexivity|]. split; [|reflexivity].
  apply (unverified_streak_never_expires self
           [(11, []); (100, []); (100000, [])]); reflexivity.
Defined.

(** A stored streak start that passes neither [> 0.0] nor [< 0.0] (the
    value 0.0, or a NaN) silences the detector for good: every call,
    with any frame at any clock reading, returns nothing and changes
    nothing. *)
Theorem neither_set_nor_unset_is_final self calls :
  is_set self = false ->
  is_unset self = false ->
  run self calls = (self, repeat [] (length calls)).
Proof.
  intros Hs Hu. induction calls as [|[now frame] calls IH].
  - reflexivity.
  - simpl. destruct (any_candidate self frame) eqn:Hc.
    + rewrite (get_detections_present _ _ _ Hc), scan_spec.
      unfold sustained. rewrite Hs. simpl.
      unfold start_streak, refresh. simpl. rewrite Hu. now rewrite IH.
    + rewrite (get_detections_idle _ _ _ Hs Hc). now rewrite IH.
Qed.

Lemma neither_set_nor_unset_is_final_witness :
  let self := fst (run cat_watch [(0, [cat])]) in
  time_detected self = 0 /\
  run self [(1, [cat]); (5, [cat]); (9, []); (20, [cat])] =
    (self, [[]; []; []; []]).
Proof.
  intros self. split; [reflexivity|].
  apply (neither_set_nor_unset_is_final self
           [(1, [cat]); (5, [cat]); (9, []); (20, [cat])]); reflexivity.
Defined.

(** ** Invariants of the detector's state *)

Lemma start_streak_detections self curr_time b :
  detections (start_streak self curr_time b) = detections self.
Proof. unfold start_streak. now destruct (b && is_unset self). Qed.

(** Where the returned list and the new cache can come from. *)
Lemma get_detections_sources self curr_time frame :
  let self' := fst (get_detections self curr_time frame) in
  let out := snd (get_detections self curr_time frame) in
  (out = map report (List.filter (is_candidate self) frame) \/
   out = detections self \/ out = []) /\
  (detections self' = out \/ detections self' = detections self \/
   detections self' = []).
Proof.
  simpl. destruct (any_candidate self frame) eqn:Hc.
  - rewrite (get_detections_present _ _ _ Hc), scan_spec. simpl.
    rewrite start_streak_detections. unfold refresh.
    destruct (sustained self curr_time).
    + split; [now left|].
      destruct (0 <? _)%nat; simpl; [now left|now right; left].
    + split; [now right; right|]. simpl. now right; left.
  - destruct (is_set self) eqn:Hs.
    + destruct (in_grace self curr_time) eqn:Hg.
      * rewrite (get_detections_grace _ _ _ Hs Hc Hg). simpl.
        split; [now right; left|now left].
      * destruct (detections self) as [|v vs] eqn:Hd.
        -- rewrite (get_detections_stale _ _ _ Hs Hc Hg Hd). simpl.
           rewrite ?Hd. split; now right; right.
        -- rewrite (get_detections_clear _ _ _ Hs Hc Hg)
             by (rewrite Hd; discriminate).
           simpl. split; [now right; right|now left].
    + rewrite (get_detections_idle _ _ _ Hs Hc). simpl.
      split; [now right; right|now right; left].
Qed.

Lemma cache_needs_streak_step self curr_time frame :
  detections self = [] \/ is_set self = true ->
  let self' := fst (get_detections self curr_time frame) in
  detections self' = [] \/ is_set self' = true.
Proof.
  intros Hinv. simpl. destruct (is_set self) eqn:Hs.
  - destruct (streak_start_kept self curr_time frame Hs)
      as [H|(_ & Hc & Hg & Hd)].
    + right. unfold is_set in *. now rewrite H.
    + left. now rewrite (get_detections_clear _ _ _ Hs Hc Hg Hd).
  - destruct Hinv as [Hd|]; [|discriminate]. left.
    pose proof (get_detections_not_set_out self curr_time frame Hs) as Ho.
    destruct (get_detections_sources self curr_time frame)
      as [_ [H|[H|H]]]; congruence.
Qed.

(** From construction on, whenever something is cached a streak start is
    stored: after any sequence of calls the cache is empty or
    [time_detected > 0.0] holds. *)
Theorem cache_needs_streak ls sc tm calls :
  let self := fst (run (init ls sc tm) calls) in
  detections self = [] \/ is_set self = true.
Proof.
  assert (H : forall cs s,
             detections s = [] \/ is_set s = true ->
             detections (fst (run s cs)) = [] \/
             is_set (fst (run s cs)) = true).
  { induction cs as [|[now frame] cs IH]; intros s Hs; [exact Hs|].
    rewrite run_cons. simpl. apply IH.
    now apply cache_needs_streak_step. }
  apply H. now left.
Qed.

Lemma streak_start_step self curr_time frame :
  let self' := fst (get_detections self curr_time frame) in
  time_detected self' = time_detected self \/
  time_detected self' = no_time \/
  (any_candidate self frame = true /\ time_detected self' = curr_time).
Proof.
  simpl. destruct (any_candidate self frame) eqn:Hc.
  - rewrite (get_detections_present _ _ _ Hc). simpl.
    unfold start_streak, is_unset. rewrite refresh_time_detected. simpl.
    destruct (time_detected self <? 0).
    + right; right. now split.
    + left. apply refresh_time_detected.
  - destruct (is_set self) eqn:Hs.
    + destruct (streak_start_kept self curr_time frame Hs) as [H|[H _]];
        [now left|now right; left].
    + rewrite (get_detections_idle _ _ _ Hs Hc). now left.
Qed.

Lemma run_streak_start_values calls :
  forall self,
    let final := fst (run self calls) in
    time_detected final = time_detected self \/
    time_detected final = no_time \/
    exists c, In c calls /\ any_candidate self (snd c) = true /\
              time_detected final = fst c.
Proof.
  induction calls as [|[now frame] calls IH]; intros self; simpl.
  - now left.
  - pose proof (streak_start_step self now frame) as Hstep.
    pose proof (get_detections_config self now frame) as Hcfg.
    destruct (get_detections self now frame) as [self' out]. simpl in *.
    specialize (IH self').
    destruct (run self' calls) as [final outs]. simpl in *.
    destruct IH as [IH|[IH|(c & Hin & Hc & IH)]].
    + rewrite IH. destruct Hstep as [H|[H|[Hc H]]];
        [now left|now right; left|].
      right; right. exists (now, frame). simpl. auto.
    + now right; left.
    + right; right. exists c. split; [now right|]. split; [|exact IH].
      now rewrite (any_candidate_config self self' (snd c) Hcfg).
Qed.

(** The stored streak start is never made up: after any sequence of
    calls it is the sentinel [-1.0] or the clock reading of one of those
    calls whose frame held a candidate. *)
Theorem streak_start_is_a_clock_reading ls sc tm calls :
  let self := fst (run (init ls sc tm) calls) in
  time_detected self = no_time \/
  exists c, In c calls /\ any_candidate (init ls sc tm) (snd c) = true /\
            time_detected self = fst c.
Proof.
  simpl.
  destruct (run_streak_start_values calls (init ls sc tm)) as [H|[H|H]];
    [left; exact H|left; exact H|right; exact H].
Qed.

Lemma get_detections_detected self curr_time frame :
  detected (fst (get_detections self curr_time frame)) = detected self.
Proof.
  unfold get_detections, absence, refresh, start_streak.
  destruct (scan self curr_time frame) as [b out].
  destruct (is_set self && negb b); [destruct (in_grace _ _)|];
    repeat (match goal with |- context [if ?c then _ else _] =>
              destruct c end; simpl);
    reflexivity.
Qed.

Lemma run_detected self calls :
  detected (fst (run self calls)) = detected self.
Proof.
  revert self. induction calls as [|[now frame] calls IH]; intros self.
  - reflexivity.
  - rewrite run_cons. simpl. rewrite IH. apply get_detections_detected.
Qed.

(** The full clear forgets everything: when a detector that has only
    ever been driven through [get_detections] takes lines 75-78, it is
    afterwards equal, attribute by attribute, to a newly constructed
    detector with the same labels and thresholds. *)
Theorem clear_gives_fresh_detector ls sc tm history curr_time frame :
  let self := fst (run (init ls sc tm) history) in
  is_set self = true ->
  any_candidate self frame = false ->
  in_grace self curr_time = false ->
  detections self <> [] ->
  get_detections self curr_time frame = (init ls sc tm, []).
Proof.
  intros self Hs Hc Hg Hd.
  rewrite (get_detections_clear _ _ _ Hs Hc Hg Hd). f_equal.
  destruct (run_config (init ls sc tm) history) as (Hl & Hsc & Htm).
  pose proof (run_detected (init ls sc tm) history) as Hdet.
  fold self in Hl, Hsc, Htm, Hdet. simpl in Hl, Hsc, Htm, Hdet.
  unfold set_time_detected, set_detections, init. simpl.
  now rewrite <- Hl, <- Hsc, <- Htm, Hdet.
Qed.

Lemma clear_gives_fresh_detector_witness :
  let history := [(10, [cat]); (11.5, [cat]); (13, [cat; cat])] in
  let self := fst (run cat_watch history) in
  detections self = [cat_report; cat_report] /\
  get_detections self 14 [] = (cat_watch, []).
Proof.
  intros history self. split; [reflexivity|].
  apply (clear_gives_fresh_detector {[ "cat" ]} 0.5 1 history 14 []);
    [reflexivity|reflexivity|reflexivity|vm_compute; discriminate].
Defined.

(** ** Where reports come from *)

Lemma from_candidate_more self seen more v :
  from_candidate self seen v -> from_candidate self (seen ++ more) v.
Proof.
  intros (r & Hin & Hc & Hv). exists r. split; [|now split].
  apply in_or_app. now left.
Qed.

Lemma from_candidate_frame self0 self seen frame :
  same_config self0 self ->
  Forall (from_candidate self0 (seen ++ frame))
    (map report (List.filter (is_candidate self) frame)).
Proof.
  intros Hcfg. apply List.Forall_forall. intros v Hv.
  apply in_map_iff in Hv as (r & <- & Hr).
  apply filter_In in Hr as [Hin Hc].
  exists r. split; [apply in_or_app; now right|]. split; [|reflexivity].
  now rewrite (is_candidate_config self0 self r Hcfg).
Qed.

Lemma from_candidate_step self0 self seen curr_time frame :
  same_config self0 self ->
  Forall (from_candidate self0 seen) (detections self) ->
  Forall (from_candidate self0 (seen ++ frame))
    (snd (get_detections self curr_time frame)) /\
  Forall (from_candidate self0 (seen ++ frame))
    (detections (fst (get_detections self curr_time frame))).
Proof.
  intros Hcfg Hd.
  assert (Hd' : Forall (from_candidate self0 (seen ++ frame))
                  (detections self)).
  { eapply List.Forall_impl; [|exact Hd].
    intros v. apply from_candidate_more. }
  destruct (get_detections_sources self curr_time frame) as [Ho Hc].
  simpl in Ho, Hc.
  assert (Hout : Forall (from_candidate self0 (seen ++ frame))
                   (snd (get_detections self curr_time frame))).
  { destruct Ho as [->|[->| ->]];
      [now apply from_candidate_frame|exact Hd'|constructor]. }
  split; [exact Hout|].
  destruct Hc as [->|[->| ->]]; [exact Hout|exact Hd'|constructor].
Qed.

Lemma from_candidate_run self0 pre :
  forall self seen,
    same_config self0 self ->
    Forall (from_candidate self0 seen) (detections self) ->
    Forall (from_candidate self0 (seen ++ raw_detections pre))
      (detections (fst (run self pre))).
Proof.
  induction pre as [|[now frame] pre IH]; intros self seen Hcfg Hd.
  - unfold raw_detections. simpl. now rewrite app_nil_r.
  - rewrite run_cons. simpl fst.
    unfold raw_detections. simpl. rewrite app_assoc.
    apply IH.
    + eapply same_config_trans; [exact Hcfg|apply get_detections_config].
    + now apply from_candidate_step.
Qed.

(** Nothing is reported that the model did not deliver: each entry of
    the list a call returns is the label and bounding box, unchanged, of
    a raw detection that came with this call or an earlier one, carried a
    watched label and scored above [score_th]. *)
Theorem reports_come_from_candidates ls sc tm pre curr_time frame :
  let self0 := init ls sc tm in
  Forall (from_candidate self0 (raw_detections (pre ++ [(curr_time, frame)])))
    (snd (get_detections (fst (run self0 pre)) curr_time frame)).
Proof.
  intros self0.
  replace (raw_detections (pre ++ [(curr_time, frame)]))
    with (([] ++ raw_detections pre) ++ frame).
  - apply from_candidate_step.
    + apply run_config.
    + apply from_candidate_run; [apply same_config_refl|constructor].
  - unfold raw_detections. rewrite map_app, concat_app. simpl.
    now rewrite app_nil_r.
Qed.

(** ** The order of the raw detections *)

Lemma any_candidate_perm self frame frame' :
  Permutation frame frame' ->
  any_candidate self frame = any_candidate self frame'.
Proof.
  unfold any_candidate. induction 1 as [|r f f' _ IH|r1 r2 f|f1 f2 f3 _ IH1 _ IH2];
    simpl.
  - reflexivity.
  - now rewrite IH.
  - rewrite !orb_assoc. f_equal. apply orb_comm.
  - congruence.
Qed.

Lemma candidates_perm self frame frame' :
  Permutation frame frame' ->
  Permutation (map report (List.filter (is_candidate self) frame))
              (map report (List.filter (is_candidate self) frame')).
Proof.
  intros H. apply Permutation_map.
  induction H as [|r f f' _ IH|r1 r2 f|f1 f2 f3 _ IH1 _ IH2]; simpl.
  - constructor.
  - destruct (is_candidate self r); [now constructor|exact IH].
  - destruct (is_candidate self r1), (is_candidate self r2);
      try reflexivity. apply perm_swap.
  - eapply perm_trans; eassumption.
Qed.

(** The order in which the model lists its detections only shows in the
    order of the reports: two frames with the same raw detections in a
    different order give the same reports up to order, the same cache up
    to order and the same streak start. *)
Theorem frame_order_only_orders_reports self curr_time frame frame' :
  Permutation frame frame' ->
  let a := get_detections self curr_time frame in
  let b := get_detections self curr_time frame' in
  Permutation (snd a) (snd b) /\
  Permutation (detections (fst a)) (detections (fst b)) /\
  time_detected (fst a) = time_detected (fst b).
Proof.
  intros Hp. simpl.
  pose proof (any_candidate_perm self _ _ Hp) as Hc.
  destruct (any_candidate self frame) eqn:Hc1; symmetry in Hc.
  - rewrite (get_detections_present _ _ _ Hc1),
            (get_detections_present _ _ _ Hc), !scan_spec. simpl.
    assert (Ho : Permutation
                   (if sustained self curr_time
                    then map report (List.filter (is_candidate self) frame)
                    else [])
                   (if sustained self curr_time
                    then map report (List.filter (is_candidate self) frame')
                    else [])).
    { destruct (sustained self curr_time);
        [now apply candidates_perm|constructor]. }
    split; [exact Ho|]. split.
    + rewrite !start_streak_detections. unfold refresh.
      destruct (if sustained self curr_time then _ else _) as [|v o];
        destruct (if sustained self curr_time then _ else _) as [|v' o'];
        simpl.
      * reflexivity.
      * now apply Permutation_nil_cons in Ho.
      * symmetry in Ho. now apply Permutation_nil_cons in Ho.
      * exact Ho.
    + unfold start_streak, is_unset. rewrite !refresh_time_detected. simpl.
      destruct (time_detected self <? 0); [reflexivity|].
      now rewrite !refresh_time_detected.
  - rewrite (get_detections_nil _ _ _ Hc1), (get_detections_nil _ _ _ Hc).
    repeat split; reflexivity.
Qed.

Lemma frame_order_only_orders_reports_witness :
  let dog := {| bbox := [2; 2; 5; 5]; label := "dog"; score := 0.8 |} in
  let dog_report := {| v_label := "dog"; v_bbox := [2; 2; 5; 5] |} in
  let self := fst (run (init {[ "cat"; "dog" ]} 0.5 1) [(10, [dog])]) in
  snd (get_detections self 12 [cat; dog]) = [cat_report; dog_report] /\
  snd (get_detections self 12 [dog; cat]) = [dog_report; cat_report] /\
  Permutation (snd (get_detections self 12 [cat; dog]))
              (snd (get_detections self 12 [dog; cat])).
Proof.
  intros dog dog_report self.
  split; [reflexivity|]. split; [reflexivity|].
  apply (frame_order_only_orders_reports self 12 [cat; dog] [dog; cat]).
  apply perm_swap.
Defined.

(** ** The main loop *)

Lemma main_loop_run detector stream :
  main_loop detector stream =
  (fst (run detector stream), flat_map notify (snd (run detector stream))).
Proof.
  revert detector.
  induction stream as [|[now frame] stream IH]; intros detector.
  - reflexivity.
  - rewrite run_cons. simpl.
    destruct (get_detections detector now frame) as [detector' out].
    rewrite IH. reflexivity.
Qed.

Lemma notify_bound detections :
  (length (notify detections) <= 1)%nat /\
  List.Forall (eq "detected") (notify detections).
Proof.
  unfold notify. destruct (negb _); simpl; split;
    auto using List.Forall_nil, List.Forall_cons.
Qed.

Lemma main_loop_bound stream :
  forall detector,
    (length (snd (main_loop detector stream)) <= length stream)%nat /\
    List.Forall (eq "detected") (snd (main_loop detector stream)).
Proof.
  induction stream as [|[now frame] stream IH]; intros detector; simpl.
  - split; [reflexivity|constructor].
  - destruct (get_detections detector now frame) as [detector' out].
    specialize (IH detector').
    destruct (main_loop detector' stream) as [final printed].
    simpl in *. destruct IH as [IH1 IH2].
    destruct (notify_bound out) as [H1 H2].
    rewrite length_app. split; [lia|].
    apply List.Forall_app. now split.
Qed.

(** The main loop prints nothing but the line [detected], at most once
    per frame, and never for the first frame of the stream: with [n]
    frames delivered there are at most [n - 1] lines, whatever the
    thresholds. *)
Theorem main_prints_less_than_frames score_th time_th stream :
  let printed := snd (main score_th time_th stream) in
  (length printed <= Nat.pred (length stream))%nat /\
  List.Forall (eq "detected") printed.
Proof.
  simpl. unfold main. destruct stream as [|[now frame] stream].
  - split; [reflexivity|constructor].
  - simpl.
    pose proof (get_detections_not_set_out
                  (init main_labels score_th time_th) now frame eq_refl)
      as Ho.
    destruct (get_detections (init main_labels score_th time_th) now frame)
      as [detector' out].
    simpl in Ho. subst out.
    pose proof (main_loop_bound stream detector') as H.
    destruct (main_loop detector' stream) as [final printed].
    exact H.
Qed.

(** As long as no frame holds a cat, racoon or dog scored above
    [score_th], the main loop prints nothing and the detector stays as
    constructed. *)
Theorem main_silent_without_watched score_th time_th stream :
  never_present (init main_labels score_th time_th) stream = true ->
  main score_th time_th stream = (init main_labels score_th time_th, []).
Proof.
  intros Hq. unfold main. rewrite main_loop_run.
  assert (Hi : idle (init main_labels score_th time_th))
    by (split; reflexivity).
  rewrite (run_idle _ _ Hi Hq). simpl. f_equal.
  induction (length stream) as [|n IH]; [reflexivity|exact IH].
Qed.

Lemma main_silent_without_watched_witness :
  let person := {| bbox := [3; 1; 4; 8]; label := "person"; score := 0.97 |} in
  let faint := {| bbox := [0; 0; 1; 1]; label := "racoon"; score := 0.3 |} in
  main 0.3 1 [(10, [person]); (12, [person; faint]); (15, [])] =
    (init main_labels 0.3 1, []).
Proof.
  intros person faint.
  apply (main_silent_without_watched 0.3 1
           [(10, [person]); (12, [person; faint]); (15, [])]).
  reflexivity.
Defined.

End Detector.
